(** * SharpGlass icon scripts: [process_icon.py] and [resize_icons.py]

    Both scripts are short sequential wrappers around the Pillow imaging
    library.  The development has four layers:

    - a model of the Python runtime the scripts rely on (exceptions,
      [try]/[except], [for], [print], [sys.exit], [sys.argv], the exit
      status of the interpreter);
    - the interface of the imaging library, as a record of operations
      ([PIL]) together with the documented behaviour the proofs rely on
      ([PIL_laws]);
    - the two scripts, transcribed statement by statement;
    - a small executable implementation of the library interface, used to
      run the scripts on concrete inputs.

    Python floats are IEEE binary64 numbers and are modelled by Rocq's
    primitive floats.

    What the model takes for granted: a library call is a function of its
    arguments (and, for [Image.open], of the content of the file); it
    raises subclasses of [Exception] only; [print] does not fail; a save
    that raises leaves the files as they were. *)

From Stdlib Require Import ZArith String List Floats Ascii.
From Stdlib.Strings Require Import Byte.
From stdpp Require Import gmap strings pretty.

Set Warnings "-inexact-float".
Local Open Scope Z_scope.

(** ** Python runtime *)

(** Exceptions.  [Exception cls msg] stands for an instance of any subclass
    of [Exception]; [msg] is what [str(e)] returns.  [SystemExit] derives
    from [BaseException] only, so [except Exception] does not catch it. *)
Inductive BaseException : Type :=
| Exception (cls : string) (msg : string)
| SystemExit (code : Z).

Definition str (e : string * string) : string := snd e.

Inductive Outcome (A : Type) : Type :=
| Returns (a : A)
| Raises (e : BaseException).
Arguments Returns {A} a.
Arguments Raises {A} e.

(** Results of library functions: a value, or an exception of class [cls]
    carrying the message [msg]. *)
Inductive Result (A : Type) : Type :=
| Ok (a : A)
| Err (cls : string) (msg : string).
Arguments Ok {A} a.
Arguments Err {A} cls msg.

(** ** Images *)

(** A raster image: Pillow's mode string, [size = (width, height)] and the
    band values of every pixel. *)
Record Image : Type := mkImage {
  mode : string;
  size : Z * Z;
  pixels : Z -> Z -> list Z
}.

Definition width (im : Image) : Z := fst (size im).
Definition height (im : Image) : Z := snd (size im).
Definition getpixel (im : Image) (x y : Z) : list Z := pixels im x y.
Definition inside (im : Image) (x y : Z) : Prop :=
  0 <= x < width im /\ 0 <= y < height im.

(** The alpha band of an RGBA pixel is its fourth band. *)
Definition alpha (im : Image) (x y : Z) : Z := nth 3 (getpixel im x y) 0.

(** The property of an alpha channel [value] of an image of size [sz]:
    0 at the four corner pixels, 255 at the centre pixel. *)
Definition corners_clear_centre_opaque (value : Z -> Z -> Z) (sz : Z * Z)
  : Prop :=
  let '(w, h) := sz in
  value 0 0 = 0 /\ value (w - 1) 0 = 0 /\ value 0 (h - 1) = 0 /\
  value (w - 1) (h - 1) = 0 /\ value (w / 2) (h / 2) = 255.

Inductive Resampling : Type :=
| NEAREST | BOX | BILINEAR | HAMMING | BICUBIC | LANCZOS.

(** ** The imaging library *)

(** What the scripts call.  Every operation may raise.  Operations that
    mutate an image in place in Python ([rounded_rectangle], [putalpha])
    return the image after the call. *)
Record PIL : Type := mkPIL {
  (* Image.open on the content of a file (header and pixel data) *)
  lib_decode : list byte -> Result Image;
  (* im.convert(mode) *)
  lib_convert : Image -> string -> Result Image;
  (* Image.new(mode, size, color) *)
  lib_new : string -> Z * Z -> Z -> Result Image;
  (* ImageDraw.Draw(im).rounded_rectangle(xy, radius=radius, fill=fill) *)
  lib_rounded_rectangle :
    Image -> (Z * Z) * (Z * Z) -> float -> Z -> Result Image;
  (* ImageOps.fit(im, size, centering=centering) *)
  lib_fit : Image -> Z * Z -> float * float -> Result Image;
  (* im.putalpha(alpha) *)
  lib_putalpha : Image -> Image -> Result Image;
  (* im.resize(size, resample) *)
  lib_resize : Image -> Z * Z -> Resampling -> Result Image;
  (* the encoder of a file format, as used by im.save *)
  lib_encode : string -> Image -> Result (list byte);
  (* the registry of file extensions, Image.EXTENSION *)
  lib_extension : string -> option string;
  (* open(path, "w+b"): [Some (cls, msg)] when the file cannot be created *)
  lib_create : string -> option (string * string)
}.

(** ** The world a script runs in *)

Inductive Call : Type :=
| CallOpen (fp : string)
| CallConvert (im : Image) (mode : string)
| CallNew (mode : string) (size : Z * Z) (color : Z)
| CallRoundedRectangle (im : Image) (xy : (Z * Z) * (Z * Z))
                       (radius : float) (fill : Z)
| CallFit (im : Image) (size : Z * Z) (centering : float * float)
| CallPutalpha (im : Image) (mask : Image)
| CallResize (im : Image) (size : Z * Z) (resample : Resampling)
| CallSave (im : Image) (fp : string) (format : option string).

Inductive Reply : Type :=
| Gave (im : Image)
| Wrote (data : list byte)
| Failed (cls : string) (msg : string).

(** The files on disk, the lines printed so far, and the library calls made
    so far with their replies, oldest first. *)
Record World : Type := mkWorld {
  files : gmap string (list byte);
  stdout : list string;
  calls : list (Call * Reply)
}.

Definition M (A : Type) : Type := World -> Outcome A * World.

Definition ret {A} (a : A) : M A := fun w => (Returns a, w).

Definition bind {A B} (m : M A) (k : A -> M B) : M B := fun w =>
  match m w with
  | (Returns a, w') => k a w'
  | (Raises e, w') => (Raises e, w')
  end.

Notation "x <- m ;; k" := (bind m (fun x => k))
  (at level 100, m at next level, right associativity).
Notation "m ;;; k" := (bind m (fun _ => k))
  (at level 100, right associativity).

Definition raise {A} (e : BaseException) : M A := fun w => (Raises e, w).

(** [try: body except Exception as e: handler(e)] *)
Definition try_except (body : M unit) (handler : string * string -> M unit)
  : M unit := fun w =>
  match body w with
  | (Returns tt, w') => (Returns tt, w')
  | (Raises (Exception cls msg), w') => handler (cls, msg) w'
  | (Raises (SystemExit c), w') => (Raises (SystemExit c), w')
  end.

(** [for x in xs: body(x)] *)
Fixpoint for_each {A} (xs : list A) (body : A -> M unit) : M unit :=
  match xs with
  | [] => ret tt
  | x :: rest => body x ;;; for_each rest body
  end.

(** The world after [line] has been printed. *)
Definition printed (w : World) (line : string) : World :=
  {| files := files w; stdout := stdout w ++ [line]; calls := calls w |}.

Definition print (line : string) : M unit := fun w =>
  (Returns tt, printed w line).

Definition sys_exit {A} (code : Z) : M A := raise (SystemExit code).

(** [argv[i]] *)
Definition subscript (argv : list string) (i : nat) : M string :=
  match nth_error argv i with
  | Some a => ret a
  | None => raise (Exception "IndexError" "list index out of range")
  end.

(** [str(n)] for an integer [n], as used by f-strings *)
Definition str_int (n : Z) : string := pretty n.

(** [int * float]: the integer is converted to the nearest float, rounding
    to even; an integer too large for a float raises [OverflowError]. *)
Definition float_of_int (n : Z) : float :=
  SF2Prim (SpecFloat.binary_normalize FloatOps.prec FloatOps.emax n 0 false).

Definition int_times_float (n : Z) (x : float) : M float :=
  if PrimFloat.is_infinity (float_of_int n)
  then raise (Exception "OverflowError" "int too large to convert to float")
  else ret (PrimFloat.mul (float_of_int n) x).

(** The exit status of the interpreter once the main module has run: 0 on
    normal completion, the code of an uncaught [SystemExit], and 1 after an
    uncaught exception (whose traceback goes to standard error). *)
Definition exit_status (r : Outcome unit) : Z :=
  match r with
  | Returns _ => 0
  | Raises (SystemExit c) => c
  | Raises (Exception _ _) => 1
  end.

(** ** File names *)

(** The part of [p] after its last [sep], if [sep] occurs. *)
Fixpoint after_last (sep : ascii) (p : string) : option string :=
  match p with
  | EmptyString => None
  | String c r =>
      match after_last sep r with
      | Some t => Some t
      | None => if Ascii.eqb c sep then Some r else None
      end
  end.

Definition basename (p : string) : string :=
  match after_last "/" p with Some t => t | None => p end.

Fixpoint lstrip_dots (p : string) : string :=
  match p with
  | String c r => if Ascii.eqb c "." then lstrip_dots r else p
  | EmptyString => p
  end.

(** [os.path.splitext(p)[1]]: the extension of the last path component,
    from its last dot; leading dots of the component do not count. *)
Definition splitext_ext (p : string) : string :=
  match after_last "." (lstrip_dots (basename p)) with
  | Some t => String "." t
  | None => ""
  end.

Definition lower_ascii (c : ascii) : ascii :=
  let n := N_of_ascii c in
  if ((65 <=? n) && (n <=? 90))%N then ascii_of_N (n + 32) else c.

Fixpoint lower (s : string) : string :=
  match s with
  | EmptyString => EmptyString
  | String c r => String (lower_ascii c) (lower r)
  end.

(** ** Library calls, as the scripts make them *)

Definition record (c : Call) (r : Reply) (w : World) : World :=
  {| files := files w; stdout := stdout w; calls := calls w ++ [(c, r)] |}.

Definition call_image (c : Call) (r : Result Image) : M Image := fun w =>
  match r with
  | Ok im => (Returns im, record c (Gave im) w)
  | Err cls msg => (Raises (Exception cls msg), record c (Failed cls msg) w)
  end.

Section Scripts.

Context (lib : PIL).

(** What [Image.open(fp)] gives when the files are [fs]. *)
Definition load (fs : gmap string (list byte)) (fp : string) : Result Image :=
  match fs !! fp with
  | Some data => lib_decode lib data
  | None =>
      Err "FileNotFoundError"
          ("[Errno 2] No such file or directory: '" +:+ fp +:+ "'")
  end.

Definition Image_open (fp : string) : M Image := fun w =>
  call_image (CallOpen fp) (load (files w) fp) w.

Definition convert (im : Image) (m : string) : M Image :=
  call_image (CallConvert im m) (lib_convert lib im m).

Definition Image_new (m : string) (sz : Z * Z) (color : Z) : M Image :=
  call_image (CallNew m sz color) (lib_new lib m sz color).

Definition rounded_rectangle (im : Image) (xy : (Z * Z) * (Z * Z))
    (radius : float) (fill : Z) : M Image :=
  call_image (CallRoundedRectangle im xy radius fill)
             (lib_rounded_rectangle lib im xy radius fill).

Definition ImageOps_fit (im : Image) (sz : Z * Z) (centering : float * float)
  : M Image :=
  call_image (CallFit im sz centering) (lib_fit lib im sz centering).

Definition putalpha (im mask : Image) : M Image :=
  call_image (CallPutalpha im mask) (lib_putalpha lib im mask).

Definition resize (im : Image) (sz : Z * Z) (resample : Resampling)
  : M Image :=
  call_image (CallResize im sz resample) (lib_resize lib im sz resample).

(** [im.save(fp, format)]: the format is the one given, or the one
    registered for the lower-cased extension of [fp]; the file is opened
    for writing; the encoder produces its content.  A save that raises is
    taken to leave the files as they were. *)
Definition save_data (im : Image) (fp : string) (format : option string)
  : Result (list byte) :=
  let ext := lower (splitext_ext fp) in
  match (match format with
         | Some f => Some f
         | None => lib_extension lib ext
         end) with
  | None => Err "ValueError" ("unknown file extension: " +:+ ext)
  | Some fmt =>
      match lib_create lib fp with
      | Some (cls, msg) => Err cls msg
      | None => lib_encode lib fmt im
      end
  end.

Definition save (im : Image) (fp : string) (format : option string)
  : M unit := fun w =>
  match save_data im fp format with
  | Ok data =>
      (Returns tt,
       {| files := <[fp := data]> (files w);
          stdout := stdout w;
          calls := calls w ++ [(CallSave im fp format, Wrote data)] |})
  | Err cls msg =>
      (Raises (Exception cls msg),
       record (CallSave im fp format) (Failed cls msg) w)
  end.

(** ** resize_icons.py *)

Definition sizes : list Z := [16; 32; 64; 128; 256; 512].

(** The body of the [for] loop, lines 10 to 17. *)
Definition resize_one (img : Image) (output_dir : string) (s : Z) : M unit :=
  (* 1x *)
  out_1x <- resize img (s, s) LANCZOS ;;
  save out_1x
       (output_dir +:+ "/icon_" +:+ str_int s +:+ "x" +:+ str_int s +:+ ".png")
       None ;;;
  (* 2x *)
  let s2 := s * 2 in
  out_2x <- resize img (s2, s2) LANCZOS ;;
  save out_2x
       (output_dir +:+ "/icon_" +:+ str_int s +:+ "x" +:+ str_int s
                   +:+ "@2x.png")
       None.

(** The body of the [try], lines 6 to 19. *)
Definition resize_icon_body (input_path output_dir : string) : M unit :=
  img <- Image_open input_path ;;
  for_each sizes (resize_one img output_dir) ;;;
  print "Resized all icons.".

Definition resize_icon (input_path output_dir : string) : M unit :=
  try_except
    (resize_icon_body input_path output_dir)
    (fun e => print ("Error: " +:+ str e)).

(** [if __name__ == "__main__": resize_icon(sys.argv[1], sys.argv[2])] *)
Definition resize_icons_main (argv : list string) : M unit :=
  input_path <- subscript argv 1 ;;
  output_dir <- subscript argv 2 ;;
  resize_icon input_path output_dir.

(** ** process_icon.py *)

(** The default value of [corner_radius_ratio]. *)
Definition default_corner_radius_ratio : float := 0.22%float.

(** The body of the [try], lines 7 to 25. *)
Definition create_rounded_icon_body (input_path output_path : string)
    (corner_radius_ratio : float) : M unit :=
  (* Open source image *)
  opened <- Image_open input_path ;;
  img <- convert opened "RGBA" ;;
  (* Create mask *)
  mask <- Image_new "L" (size img) 0 ;;
  let '(w, h) := size img in
  radius <- int_times_float (Z.min w h) corner_radius_ratio ;;
  mask <- rounded_rectangle mask ((0, 0), (w, h)) radius 255 ;;
  (* Apply mask *)
  output <- ImageOps_fit img (size mask) (0.5%float, 0.5%float) ;;
  output <- putalpha output mask ;;
  (* Save high-res master *)
  save output output_path (Some "PNG") ;;;
  print ("Created processed icon at " +:+ output_path).

(** [corner_radius_ratio] is [None] when the caller leaves the argument
    out; the default value is then used. *)
Definition create_rounded_icon (input_path output_path : string)
    (corner_radius_ratio : option float) : M unit :=
  let ratio :=
    match corner_radius_ratio with
    | Some r => r
    | None => default_corner_radius_ratio
    end in
  try_except
    (create_rounded_icon_body input_path output_path ratio)
    (fun e => print ("Error processing image: " +:+ str e) ;;; sys_exit 1).

Definition usage : string :=
  "Usage: python3 process_icon.py <input> <output>".

Definition process_icon_main (argv : list string) : M unit :=
  (if Z.of_nat (length argv) <? 3
   then print usage ;;; sys_exit 1
   else ret tt) ;;;
  input_path <- subscript argv 1 ;;
  output_path <- subscript argv 2 ;;
  create_rounded_icon input_path output_path None.

End Scripts.

(** A script run as a program: its exit status and the world it leaves. *)
Definition run_script (main : list string -> M unit) (argv : list string)
    (w : World) : Z * World :=
  let '(r, w') := main argv w in (exit_status r, w').

(** ** What the proofs assume of the library

    Pillow's documented behaviour, as far as the claims below depend on it.
    Each law speaks of a call that returned. *)
Record PIL_laws (lib : PIL) : Prop := {
  (* convert returns an image of the requested mode and the same size *)
  convert_spec : forall im m im',
    lib_convert lib im m = Ok im' -> mode im' = m /\ size im' = size im;
  (* new returns an image of the requested mode and size; a single-band
     image is filled with the color *)
  new_spec : forall m sz c im,
    lib_new lib m sz c = Ok im ->
    mode im = m /\ size im = sz /\
    (m = "L" -> 0 <= c <= 255 ->
     forall x y, inside im x y -> getpixel im x y = [c]);
  (* drawing keeps mode and size; it paints a pixel with the fill value
     or leaves it alone (no anti-aliasing) *)
  rounded_rectangle_spec : forall im xy radius fill im',
    lib_rounded_rectangle lib im xy radius fill = Ok im' ->
    mode im' = mode im /\ size im' = size im /\
    (mode im = "L" -> 0 <= fill <= 255 ->
     forall x y, inside im x y ->
       getpixel im' x y = getpixel im x y \/ getpixel im' x y = [fill]);
  (* fit returns an image of the requested size, in the same mode *)
  fit_spec : forall im sz centering im',
    lib_fit lib im sz centering = Ok im' ->
    mode im' = mode im /\ size im' = sz;
  (* putalpha on an RGBA image with an L mask: the mask becomes the alpha
     band of the image *)
  putalpha_spec : forall im mask im',
    mode im = "RGBA" -> mode mask = "L" ->
    lib_putalpha lib im mask = Ok im' ->
    mode im' = "RGBA" /\ size im' = size im /\
    (forall x y, inside im x y ->
       alpha im' x y = nth 0 (getpixel mask x y) 0);
  (* resize returns an image of the requested size, in the same mode *)
  resize_spec : forall im sz resample im',
    lib_resize lib im sz resample = Ok im' ->
    mode im' = mode im /\ size im' = sz;
  (* the PNG plugin registers the extension .png *)
  extension_png : lib_extension lib ".png" = Some "PNG"
}.

(** ** Reading the log *)

(** The successful saves of a log, oldest first: path, image, content. *)
Definition saved (e : Call * Reply) : option (string * Image * list byte) :=
  match e with
  | (CallSave im fp _, Wrote data) => Some (fp, im, data)
  | _ => None
  end.

Definition path_of (s : string * Image * list byte) : string := s.1.1.

Definition saves (log : list (Call * Reply))
  : list (string * Image * list byte) := omap saved log.

Definition write_all (ws : list (string * Image * list byte))
    (fs : gmap string (list byte)) : gmap string (list byte) :=
  fold_left (fun m '(fp, _, data) => <[fp := data]> m) ws fs.

(** The world after the library calls [new], none of which printed. *)
Definition extend (w : World) (new : list (Call * Reply)) : World :=
  {| files := write_all (saves new) (files w);
     stdout := stdout w;
     calls := calls w ++ new |}.

Definition is_convert (e : Call * Reply) : Prop :=
  match e with (CallConvert _ _, _) => True | _ => False end.


(** ** The outputs of the resizer *)

(** The two files of one nominal size, as the loop writes them: path and
    side in pixels. *)
Definition targets (output_dir : string) (s : Z) : list (string * Z) :=
  [(output_dir +:+ "/icon_" +:+ str_int s +:+ "x" +:+ str_int s +:+ ".png",
    s);
   (output_dir +:+ "/icon_" +:+ str_int s +:+ "x" +:+ str_int s
               +:+ "@2x.png",
    s * 2)].

(** The twelve outputs as the specification lists them: file name and side
    in pixels, in ascending nominal size, 1x before 2x. *)
Definition icon_set : list (string * Z) :=
  [("icon_16x16.png", 16);     ("icon_16x16@2x.png", 32);
   ("icon_32x32.png", 32);     ("icon_32x32@2x.png", 64);
   ("icon_64x64.png", 64);     ("icon_64x64@2x.png", 128);
   ("icon_128x128.png", 128);  ("icon_128x128@2x.png", 256);
   ("icon_256x256.png", 256);  ("icon_256x256@2x.png", 512);
   ("icon_512x512.png", 512);  ("icon_512x512@2x.png", 1024)].

Definition in_dir (output_dir : string) (t : string * Z) : string * Z :=
  (output_dir +:+ "/" +:+ fst t, snd t).

(** ** What the log of the resizer's loop looks like *)

Section LoopLog.

Context (lib : PIL) (img : Image).

(** A call of the loop: a Lanczos resize of the source image to a square,
    or a save, with no explicit format, of an image that such a resize
    returned. *)
Definition from_resize (e : Call * Reply) : Prop :=
  match e with
  | (CallResize im sz resample, _) =>
      im = img /\ resample = LANCZOS /\ exists side, sz = (side, side)
  | (CallSave out _ format, _) =>
      format = None /\
      exists side, lib_resize lib img (side, side) LANCZOS = Ok out
  | _ => False
  end.

(** The save [s] wrote the target [t]: the file [fst t] holds the source
    image resized to a square of side [snd t]. *)
Definition wrote (s : string * Image * list byte) (t : string * Z) : Prop :=
  let '(fp, out, data) := s in
  fp = fst t /\
  lib_resize lib img (snd t, snd t) LANCZOS = Ok out /\
  save_data lib out fp None = Ok data.

(** The exception [e] was raised by the resize or by the save of the
    target [t]. *)
Definition stopped_at (e : BaseException) (t : string * Z) : Prop :=
  exists cls msg,
    e = Exception cls msg /\
    (lib_resize lib img (snd t, snd t) LANCZOS = Err cls msg \/
     exists out,
       lib_resize lib img (snd t, snd t) LANCZOS = Ok out /\
       save_data lib out (fst t) None = Err cls msg).

(** The outcome [r] of running the loop over the targets [done ++ rest],
    with log [new]: [done] was written, in order, and [rest] is empty or
    starts with the target at which the loop stopped. *)
Definition loop_log (r : Outcome unit) (new : list (Call * Reply))
    (done rest : list (string * Z)) : Prop :=
  Forall from_resize new /\
  Forall2 wrote (saves new) done /\
  match r with
  | Returns _ => rest = []
  | Raises e =>
      exists t rest', rest = t :: rest' /\ stopped_at e t /\
      exists c cls msg,
        e = Exception cls msg /\ last new = Some (c, Failed cls msg)
  end.

End LoopLog.

(** ** What a run of the resizer looks like *)

Section ResizerLog.

Context (lib : PIL).

(** How the resizer runs: the library calls [new] and the line printed. *)
Definition resizer_log (w : World) (input_path output_dir : string)
    (new : list (Call * Reply)) (line : string) : Prop :=
  match load lib (files w) input_path with
  | Err cls msg =>
      new = [(CallOpen input_path, Failed cls msg)] /\
      line = "Error: " +:+ msg
  | Ok img =>
      exists r loop done rest,
        new = (CallOpen input_path, Gave img) :: loop /\
        done ++ rest = in_dir output_dir <$> icon_set /\
        loop_log lib img r loop done rest /\
        resize_icon_body lib input_path output_dir w =
          (r, match r with
              | Returns _ => printed (extend w new) "Resized all icons."
              | Raises _ => extend w new
              end) /\
        line = match r with
               | Returns _ => "Resized all icons."
               | Raises (Exception _ msg) => "Error: " +:+ msg
               | Raises (SystemExit _) => ""
               end
  end.


End ResizerLog.

(** ** An executable implementation of the library interface

    Small stand-ins for the codecs, the resampler and the rasteriser, so
    that the scripts can be run on concrete files.  A file holds the width,
    the height, and then the band values of every pixel, row by row; an
    image is read back as a gray image. *)
Module Toy.

Definition byte_of (v : Z) : byte :=
  match Byte.of_N (Z.to_N (v mod 256)) with
  | Some b => b
  | None => x00
  end.

Definition of_byte (b : byte) : Z := Z.of_N (Byte.to_N b).

Definition decode (data : list byte) : Result Image :=
  match data with
  | bw :: bh :: body =>
      let w := of_byte bw in
      Ok {| mode := "L";
            size := (w, of_byte bh);
            pixels := fun x y =>
              [of_byte (nth (Z.to_nat (y * w + x)) body x00)] |}
  | _ => Err "UnidentifiedImageError" "cannot identify image file"
  end.

Definition to_rgba (p : list Z) : list Z :=
  match p with
  | [v] => [v; v; v; 255]
  | [r; g; b] => [r; g; b; 255]
  | _ => p
  end.

Definition convert (im : Image) (m : string) : Result Image :=
  Ok {| mode := m;
        size := size im;
        pixels := fun x y =>
          if String.eqb m "RGBA" then to_rgba (pixels im x y)
          else pixels im x y |}.

Definition new (m : string) (sz : Z * Z) (c : Z) : Result Image :=
  Ok {| mode := m; size := sz; pixels := fun _ _ => [c] |}.

(** The integer part of a non-negative float. *)
Definition floor (f : float) : Z :=
  match Prim2SF f with
  | S754_finite false m e =>
      if 0 <=? e then Z.pos m * 2 ^ e else Z.pos m / 2 ^ (- e)
  | _ => 0
  end.

(** [(x, y)] is painted when it lies in the box and its centre is not
    beyond a corner arc of radius [r]; distances are in half pixels. *)
Definition painted (xy : (Z * Z) * (Z * Z)) (r x y : Z) : bool :=
  let '((x0, y0), (x1, y1)) := xy in
  let dx := Z.max (2 * (x0 + r) - (2 * x + 1))
                  (2 * x + 1 - 2 * (x1 + 1 - r)) in
  let dy := Z.max (2 * (y0 + r) - (2 * y + 1))
                  (2 * y + 1 - 2 * (y1 + 1 - r)) in
  (x0 <=? x) && (x <=? x1) && (y0 <=? y) && (y <=? y1) &&
  negb ((0 <? dx) && (0 <? dy) && ((2 * r) ^ 2 <? dx ^ 2 + dy ^ 2)).

Definition rounded_rectangle (im : Image) (xy : (Z * Z) * (Z * Z))
    (radius : float) (fill : Z) : Result Image :=
  Ok {| mode := mode im;
        size := size im;
        pixels := fun x y =>
          if painted xy (floor radius) x y then [fill]
          else pixels im x y |}.

(** Nearest-neighbour sampling to a new size. *)
Definition sample (im : Image) (sz : Z * Z) : Result Image :=
  if (0 <? fst sz) && (0 <? snd sz)
  then Ok {| mode := mode im;
             size := sz;
             pixels := fun x y =>
               pixels im (x * width im / fst sz) (y * height im / snd sz) |}
  else Err "ValueError" "height and width must be > 0".

Definition putalpha (im mask : Image) : Result Image :=
  if bool_decide (size mask = size im)
  then Ok {| mode := mode im;
             size := size im;
             pixels := fun x y =>
               let p := pixels im x y in
               [nth 0 p 0; nth 1 p 0; nth 2 p 0;
                nth 0 (pixels mask x y) 0] |}
  else Err "ValueError" "images do not match".

Definition range (n : Z) : list Z := map Z.of_nat (seq 0 (Z.to_nat n)).

Definition encode (fmt : string) (im : Image) : Result (list byte) :=
  if String.eqb fmt "PNG"
  then Ok (byte_of (width im) :: byte_of (height im) ::
           flat_map (fun y =>
             flat_map (fun x => map byte_of (pixels im x y))
                      (range (width im)))
             (range (height im)))
  else Err "KeyError" fmt.

Definition extension (ext : string) : option string :=
  if String.eqb ext ".png" then Some "PNG" else None.

(** Nothing can be created under [/readonly/]. *)
Definition create (fp : string) : option (string * string) :=
  if String.prefix "/readonly/" fp
  then Some ("PermissionError",
             "[Errno 13] Permission denied: '" +:+ fp +:+ "'")
  else None.

Definition pil : PIL :=
  {| lib_decode := decode;
     lib_convert := convert;
     lib_new := new;
     lib_rounded_rectangle := rounded_rectangle;
     lib_fit := fun im sz _ => sample im sz;
     lib_putalpha := putalpha;
     lib_resize := fun im sz _ => sample im sz;
     lib_encode := encode;
     lib_extension := extension;
     lib_create := create |}.

(** The same library on a disk where the file [bad] cannot be created. *)
Definition pil_without (bad : string) : PIL :=
  {| lib_decode := decode;
     lib_convert := convert;
     lib_new := new;
     lib_rounded_rectangle := rounded_rectangle;
     lib_fit := fun im sz _ => sample im sz;
     lib_putalpha := putalpha;
     lib_resize := fun im sz _ => sample im sz;
     lib_encode := encode;
     lib_extension := extension;
     lib_create := fun fp =>
       if String.eqb fp bad
       then Some ("OSError", "[Errno 28] No space left on device")
       else None |}.

(** A world with nothing printed and no call made yet. *)
Definition world (fs : gmap string (list byte)) : World :=
  {| files := fs; stdout := []; calls := [] |}.

(** A gray image of one pixel, and a black square of side 64. *)
Definition one_pixel : list byte := [x01; x01; x80].
Definition black_64 : list byte := [x40; x40].

Definition disk : gmap string (list byte) :=
  <["dot.png" := one_pixel]> (<["master.png" := black_64]> ∅).

End Toy.

(** ** More readings of the log *)

(** A call that returned. *)
Definition succeeded (e : Call * Reply) : Prop :=
  match e.2 with
  | Failed _ _ => False
  | _ => True
  end.

(** The log [new] of a computation that ended with [r] and stopped at the
    first call that raised: every call returned, or the last one raised
    the exception that ended the computation and all before it returned. *)
Definition fail_fast (r : Outcome unit) (new : list (Call * Reply)) : Prop :=
  match r with
  | Returns _ => Forall succeeded new
  | Raises e =>
      exists init c cls msg,
        e = Exception cls msg /\
        new = init ++ [(c, Failed cls msg)] /\
        Forall succeeded init
  end.

(** The number of pixels of an image. *)
Definition pixel_count (im : Image) : Z := width im * height im.

(** * Proofs *)

(** ** Running library calls *)

Lemma world_eta w :
  {| files := files w; stdout := stdout w; calls := calls w |} = w.
Proof. by destruct w. Qed.

Lemma saves_app a b : saves (a ++ b) = saves a ++ saves b.
Proof. apply omap_app. Qed.

Lemma extend_nil w : extend w [] = w.
Proof. unfold extend; simpl. rewrite app_nil_r. apply world_eta. Qed.

Lemma extend_app w a b : extend (extend w a) b = extend w (a ++ b).
Proof.
  unfold extend, write_all; simpl.
  by rewrite saves_app, fold_left_app, <- List.app_assoc.
Qed.

Lemma call_image_run c r w :
  call_image c r w =
  match r with
  | Ok im => (Returns im, extend w [(c, Gave im)])
  | Err cls msg => (Raises (Exception cls msg), extend w [(c, Failed cls msg)])
  end.
Proof. by destruct r, c. Qed.

Section Runs.

Context (lib : PIL).

Lemma save_run im fp fmt w :
  save lib im fp fmt w =
  match save_data lib im fp fmt with
  | Ok data => (Returns tt, extend w [(CallSave im fp fmt, Wrote data)])
  | Err cls msg =>
      (Raises (Exception cls msg),
       extend w [(CallSave im fp fmt, Failed cls msg)])
  end.
Proof. unfold save. by destruct (save_data lib im fp fmt). Qed.

Lemma Image_open_run fp w :
  Image_open lib fp w =
  match load lib (files w) fp with
  | Ok im => (Returns im, extend w [(CallOpen fp, Gave im)])
  | Err cls msg =>
      (Raises (Exception cls msg), extend w [(CallOpen fp, Failed cls msg)])
  end.
Proof. unfold Image_open. by rewrite call_image_run. Qed.

End Runs.

(** ** The loop of the resizer *)

Section Loop.

Context (lib : PIL) (img : Image) (output_dir : string).

Local Ltac loop_calls :=
  repeat (constructor; [by simpl; split_and?; eauto|]); constructor.

Lemma resize_one_log s w :
  exists r new done rest,
    resize_one lib img output_dir s w = (r, extend w new) /\
    done ++ rest = targets output_dir s /\
    loop_log lib img r new done rest.
Proof.
  unfold resize_one, bind, resize, targets, loop_log.
  set (p1 := output_dir +:+ "/icon_" +:+ str_int s +:+ "x" +:+ str_int s
                        +:+ ".png").
  set (p2 := output_dir +:+ "/icon_" +:+ str_int s +:+ "x" +:+ str_int s
                        +:+ "@2x.png").
  clearbody p1 p2.
  assert (Stop : forall e (new : list (Call * Reply)) t rest cls msg c,
             e = Exception cls msg ->
             last new = Some (c, Failed cls msg) ->
             stopped_at lib img e t ->
             exists t' rest',
               t :: rest = t' :: rest' /\ stopped_at lib img e t' /\
               exists c cls msg,
                 e = Exception cls msg /\ last new = Some (c, Failed cls msg)).
  { intros e new t rest cls msg c -> La St.
    exists t, rest; split_and!; [done..|]. by exists c, cls, msg. }
  rewrite call_image_run.
  destruct (lib_resize lib img (s, s) LANCZOS) as [o1|cls msg] eqn:R1.
  2:{ exists (Raises (Exception cls msg)),
        [(CallResize img (s, s) LANCZOS, Failed cls msg)],
        [], [(p1, s); (p2, s * 2)].
      split_and!; [done|done| |constructor|].
      - loop_calls.
      - eapply Stop; [done..|]. exists cls, msg; split; [done|]. by left. }
  rewrite save_run.
  destruct (save_data lib o1 p1 None) as [d1|cls msg] eqn:S1.
  2:{ rewrite extend_app.
      exists (Raises (Exception cls msg)),
        [(CallResize img (s, s) LANCZOS, Gave o1);
         (CallSave o1 p1 None, Failed cls msg)],
        [], [(p1, s); (p2, s * 2)].
      split_and!; [done|done| |constructor|].
      - loop_calls.
      - eapply Stop; [done..|]. exists cls, msg; split; [done|].
        right. by exists o1. }
  cbv zeta. rewrite call_image_run, !extend_app.
  destruct (lib_resize lib img (s * 2, s * 2) LANCZOS) as [o2|cls msg] eqn:R2.
  2:{ rewrite extend_app.
      exists (Raises (Exception cls msg)),
        [(CallResize img (s, s) LANCZOS, Gave o1);
         (CallSave o1 p1 None, Wrote d1);
         (CallResize img (s * 2, s * 2) LANCZOS, Failed cls msg)],
        [(p1, s)], [(p2, s * 2)].
      split_and!; [done|done| | |].
      - loop_calls.
      - by repeat constructor.
      - eapply Stop; [done..|]. exists cls, msg; split; [done|]. by left. }
  rewrite save_run, !extend_app.
  destruct (save_data lib o2 p2 None) as [d2|cls msg] eqn:S2.
  2:{ rewrite extend_app.
      exists (Raises (Exception cls msg)),
        [(CallResize img (s, s) LANCZOS, Gave o1);
         (CallSave o1 p1 None, Wrote d1);
         (CallResize img (s * 2, s * 2) LANCZOS, Gave o2);
         (CallSave o2 p2 None, Failed cls msg)],
        [(p1, s)], [(p2, s * 2)].
      split_and!; [done|done| | |].
      - loop_calls.
      - by repeat constructor.
      - eapply Stop; [done..|]. exists cls, msg; split; [done|].
        right. by exists o2. }
  rewrite extend_app.
  exists (Returns tt),
    [(CallResize img (s, s) LANCZOS, Gave o1);
     (CallSave o1 p1 None, Wrote d1);
     (CallResize img (s * 2, s * 2) LANCZOS, Gave o2);
     (CallSave o2 p2 None, Wrote d2)],
    [(p1, s); (p2, s * 2)], [].
  split_and!; [done|done| | |done].
  - loop_calls.
  - by repeat constructor.
Qed.

Lemma loop_log_app r new1 new2 done1 done2 rest :
  loop_log lib img (Returns tt) new1 done1 [] ->
  loop_log lib img r new2 done2 rest ->
  loop_log lib img r (new1 ++ new2) (done1 ++ done2) rest.
Proof.
  intros (F1 & W1 & _) (F2 & W2 & R).
  repeat split.
  - by apply Forall_app.
  - rewrite saves_app. by apply Forall2_app.
  - destruct r as [|e]; [done|].
    destruct R as (t & rest' & -> & St & c & cls & msg & -> & La).
    eexists _, _; repeat split; [done|].
    exists c, cls, msg; split; [done|]. by rewrite last_app, La.
Qed.

Lemma for_each_log ss w :
  exists r new done rest,
    for_each ss (resize_one lib img output_dir) w = (r, extend w new) /\
    done ++ rest = flat_map (targets output_dir) ss /\
    loop_log lib img r new done rest.
Proof.
  revert w. induction ss as [|s ss IH]; intros w.
  - exists (Returns tt), [], [], []. rewrite extend_nil.
    split_and!; [done..|]. split_and!; [constructor..|done].
  - cbn [for_each flat_map]. unfold bind.
    destruct (resize_one_log s w) as (r & new & done & rest & -> & T & L).
    destruct r as [[]|e].
    + destruct (IH (extend w new))
        as (r' & new' & done' & rest' & -> & T' & L').
      rewrite extend_app.
      assert (rest = []) as -> by apply L.
      exists r', (new ++ new'), (done ++ done'), rest'.
      split_and!; [done| |by apply loop_log_app].
      rewrite <- T, <- T', app_nil_r. by rewrite <- List.app_assoc.
    + exists (Raises e), new, done,
        (rest ++ flat_map (targets output_dir) ss).
      split_and!; [done|by rewrite List.app_assoc, T|].
      destruct L as (F & W & t & rest' & -> & St & La).
      split_and!; [done..|].
      by exists t, (rest' ++ flat_map (targets output_dir) ss).
Qed.

End Loop.

(** ** Files and file names *)




Lemma append_inj_r d a b : d +:+ a = d +:+ b -> a = b.
Proof. induction d as [|c d IH]; simpl; [done|]. intros [=]. auto. Qed.



(** The names of the icon set are distinct, contain no slash and end in
    the extension [.png]. *)
Lemma icon_set_names :
  NoDup (fst <$> icon_set) /\
  Forall (fun name =>
            after_last "/" name = None /\ lower (splitext_ext name) = ".png")
         (fst <$> icon_set).
Proof.
  split.
  - apply (bool_decide_unpack _). by vm_compute.
  - repeat constructor.
Qed.

Lemma in_dir_paths_NoDup dir : NoDup (fst <$> (in_dir dir <$> icon_set)).
Proof.
  replace (fst <$> (in_dir dir <$> icon_set))
    with ((fun n => dir +:+ "/" +:+ n) <$> (fst <$> icon_set)) by done.
  apply NoDup_fmap_2; [|apply icon_set_names].
  intros a b Hab. apply append_inj_r in Hab. by apply append_inj_r in Hab.
Qed.

(** The loop writes the icon set of the specification. *)
Lemma targets_icon_set dir :
  flat_map (targets dir) sizes = in_dir dir <$> icon_set.
Proof. by vm_compute. Qed.

Section Resizer.

Context (lib : PIL).



Lemma resize_icon_run input_path output_dir w :
  exists new line,
    resize_icon lib input_path output_dir w =
      (Returns tt, printed (extend w new) line) /\
    resizer_log lib w input_path output_dir new line.
Proof.
  unfold resize_icon, try_except, resizer_log, resize_icon_body, bind.
  rewrite Image_open_run.
  destruct (load lib (files w) input_path) as [img|cls msg].
  2:{ by eexists _, _. }
  destruct (for_each_log lib img output_dir sizes
              (extend w [(CallOpen input_path, Gave img)]))
    as (r & loop & done & rest & -> & T & L).
  rewrite targets_icon_set in T. rewrite extend_app.
  destruct r as [[]|e].
  - eexists _, _; split; [done|]. by eexists (Returns tt), loop, done, rest.
  - destruct L as (F & W & t & rest' & -> & St & c & cls & msg & -> & La).
    eexists _, _; split; [done|].
    eexists (Raises (Exception cls msg)), loop, done, (t :: rest').
    split_and!; [done..| |done|done].
    split_and!; [done..|]. exists t, rest'; split_and!; [done..|].
    by exists c, cls, msg.
Qed.

End Resizer.

Section ResizerClaims.

Context (lib : PIL).




(** The amended C4: when the command line has at least two arguments, the
    resizer's process exits with status 0 after printing one line:
    "Resized all icons." when load, resizes and saves all succeeded, and
    "Error: <details>" when one of them raised. *)
Theorem resize_icons_exits_zero argv w prog input_path output_dir extra :
  argv = prog :: input_path :: output_dir :: extra ->
  exists w' line,
    run_script (resize_icons_main lib) argv w = (0, w') /\
    stdout w' = stdout w ++ [line] /\
    match fst (resize_icon_body lib input_path output_dir w) with
    | Returns _ => line = "Resized all icons."
    | Raises (Exception _ details) => line = "Error: " +:+ details
    | Raises (SystemExit _) => False
    end.
Proof.
  intros ->.
  destruct (resize_icon_run lib input_path output_dir w)
    as (new & line & Run & Log).
  exists (printed (extend w new) line), line.
  unfold run_script, resize_icons_main, bind, subscript; simpl.
  rewrite Run. split_and!; [done..|].
  unfold resizer_log in Log.
  destruct (load lib (files w) input_path) as [img|cls msg] eqn:Ld.
  - destruct Log as (r & loop & done & rest & -> & T & (F & W & R) & -> & ->).
    destruct r as [|e]; [done|]. simpl.
    by destruct R as (t & rest' & -> & _ & c & cls & msg & -> & La).
  - destruct Log as [-> ->].
    unfold resize_icon_body, bind. by rewrite Image_open_run, Ld.
Qed.

Section WithLaws.

Context (laws : PIL_laws lib).

(** C10: the resizer never calls [convert], and every image it passes to
    [save] has the mode of the image it loaded; the image is a square. *)
Theorem resize_icon_keeps_mode input_path output_dir w :
  exists new line,
    resize_icon lib input_path output_dir w =
      (Returns tt, printed (extend w new) line) /\
    Forall (fun e => ~ is_convert e) new /\
    forall img, load lib (files w) input_path = Ok img ->
      forall out fp format reply,
        (CallSave out fp format, reply) ∈ new ->
        mode out = mode img /\ exists side, size out = (side, side).
Proof.
  destruct (resize_icon_run lib input_path output_dir w)
    as (new & line & Run & Log).
  exists new, line. split; [done|].
  unfold resizer_log in Log.
  destruct (load lib (files w) input_path) as [img|cls msg].
  - destruct Log as (r & loop & done & rest & -> & T & (F & W & R) & _ & ->).
    split.
    + constructor; [by intros []|].
      eapply Forall_impl; [exact F|].
      intros [[] ?]; simpl; tauto.
    + intros ? [= <-] out fp format reply Hin.
      apply elem_of_cons in Hin as [[=]|Hin].
      rewrite Forall_forall in F. destruct (F _ Hin) as (_ & side & Hr).
      destruct (resize_spec lib laws _ _ _ _ Hr) as [Hm Hs].
      split; [done|]. by exists side.
  - destruct Log as [-> ->]. split; [by repeat constructor; intros []|].
    intros ? [=].
Qed.



End WithLaws.

End ResizerClaims.

(** ** Running the rounder *)

(** One library call of the script: rewrite it to the library's reply and
    split on that reply, calling [x] what it returned. *)
Ltac call_step x E :=
  cbv beta iota;
  first [ rewrite !Image_open_run
        | rewrite !call_image_run
        | rewrite !save_run ];
  try match goal with
      | H : load ?l ?a ?f = load ?l ?b ?f |- _ => rewrite H
      end;
  lazymatch goal with
  | |- context [match ?r with Ok _ => _ | Err _ _ => _ end] =>
      destruct r as [x|?cls ?msg] eqn:E
  end;
  cbv beta iota; rewrite ?extend_app.

(** The whole of [create_rounded_icon], one goal per place where it can
    stop. *)
Ltac run_rounder :=
  unfold create_rounded_icon, try_except, create_rounded_icon_body, bind,
    convert, Image_new, rounded_rectangle, ImageOps_fit, putalpha,
    print, sys_exit;
  let opened := fresh "the_opened" in let Eopen := fresh "Eopen" in
  let img := fresh "the_img" in let Econvert := fresh "Econvert" in
  let blank := fresh "the_blank" in let Enew := fresh "Enew" in
  let mask := fresh "the_mask" in let Edraw := fresh "Edraw" in
  let fitted := fresh "the_fitted" in let Efit := fresh "Efit" in
  let out := fresh "the_out" in let Eputalpha := fresh "Eputalpha" in
  let data := fresh "the_data" in let Esave := fresh "Esave" in
  call_step opened Eopen; [call_step img Econvert|..];
  [call_step blank Enew|..];
  [ lazymatch goal with
    | |- context [size ?im] =>
        let W := fresh "wd" in let H := fresh "ht" in
        let S := fresh "Size" in
        destruct (size im) as [W H] eqn:S
    end;
    unfold int_times_float, raise, ret;
    lazymatch goal with
    | |- context [PrimFloat.is_infinity ?x] =>
        let I := fresh "Inf" in destruct (PrimFloat.is_infinity x) eqn:I
    end;
    [|call_step mask Edraw; [call_step fitted Efit|..];
      [call_step out Eputalpha|..]; [call_step data Esave|..]]
  |..];
  unfold raise; cbv beta iota.

(** Find out which event of a concrete log a membership speaks of. *)
Ltac which_event H :=
  repeat (apply elem_of_cons in H as [H|H]);
  [..|by apply elem_of_nil in H]; simplify_eq.

Section Rounder.

Context (lib : PIL).

Lemma save_data_format im fp fmt :
  save_data lib im fp (Some fmt) =
  match lib_create lib fp with
  | Some (cls, msg) => Err cls msg
  | None => lib_encode lib fmt im
  end.
Proof. reflexivity. Qed.

Lemma process_icon_main_usage argv w :
  (length argv < 3)%nat ->
  process_icon_main lib argv w = (Raises (SystemExit 1), printed w usage).
Proof. by destruct argv as [|? [|? [|? ?]]]; [..|simpl; lia]. Qed.

Lemma process_icon_main_args prog input_path output_path extra w :
  process_icon_main lib (prog :: input_path :: output_path :: extra) w =
  create_rounded_icon lib input_path output_path None w.
Proof.
  unfold process_icon_main, bind.
  destruct (Z.ltb_spec (Z.of_nat (length (prog :: input_path :: output_path
                                           :: extra))) 3) as [Hlt|_];
    [simpl in Hlt; lia|done].
Qed.

(** The body of the [try] raises exceptions only, and prints only its last
    line. *)
Lemma body_outcome input_path output_path ratio w :
  match create_rounded_icon_body lib input_path output_path ratio w with
  | (Returns _, w') =>
      exists new,
        w' = printed (extend w new)
                     ("Created processed icon at " +:+ output_path)
  | (Raises (Exception cls msg), w') => exists new, w' = extend w new
  | (Raises (SystemExit _), _) => False
  end.
Proof. run_rounder; by eexists. Qed.

Lemma create_rounded_icon_run input_path output_path ratio w :
  create_rounded_icon lib input_path output_path ratio w =
  match create_rounded_icon_body lib input_path output_path
          (match ratio with
           | Some r => r
           | None => default_corner_radius_ratio
           end) w with
  | (Returns _, w1) => (Returns tt, w1)
  | (Raises (Exception _ msg), w1) =>
      (Raises (SystemExit 1),
       printed w1 ("Error processing image: " +:+ msg))
  | (Raises (SystemExit c), w1) => (Raises (SystemExit c), w1)
  end.
Proof.
  unfold create_rounded_icon, try_except.
  by destruct (create_rounded_icon_body _ _ _ _ _) as [[[]|[]] ?].
Qed.

Lemma body_load_fails input_path output_path ratio w cls msg :
  load lib (files w) input_path = Err cls msg ->
  (create_rounded_icon_body lib input_path output_path ratio w).1 =
    Raises (Exception cls msg) /\
  stdout (create_rounded_icon_body lib input_path output_path ratio w).2 =
    stdout w.
Proof. intros Ld. run_rounder; by simplify_eq. Qed.

Lemma body_unwritable input_path output_path ratio w :
  is_Some (lib_create lib output_path) ->
  forall w',
    create_rounded_icon_body lib input_path output_path ratio w <>
    (Returns tt, w').
Proof.
  intros [[cls msg] Hcr] w'. run_rounder; try done.
  by rewrite save_data_format, Hcr in Esave.
Qed.

(** C5: the exit status of the rounder's command line.  With fewer than
    two arguments it prints the usage line and exits with status 1.
    Otherwise it exits with status 0 after "Created processed icon at
    <output_path>" when the processing raised nothing, and with status 1
    after "Error processing image: <details>" when it raised; a missing
    input file, an undecodable one and an output path that cannot be
    created are such failures. *)
Theorem process_icon_exit_status argv w :
  let '(status, w') := run_script (process_icon_main lib) argv w in
  ((length argv < 3)%nat -> status = 1 /\ w' = printed w usage) /\
  (forall prog input_path output_path extra,
     argv = prog :: input_path :: output_path :: extra ->
     match create_rounded_icon_body lib input_path output_path
                                    default_corner_radius_ratio w with
     | (Returns _, w1) =>
         status = 0 /\ w' = w1 /\
         stdout w' = stdout w ++
                     ["Created processed icon at " +:+ output_path]
     | (Raises (Exception _ details), w1) =>
         status = 1 /\
         w' = printed w1 ("Error processing image: " +:+ details) /\
         stdout w' = stdout w ++ ["Error processing image: " +:+ details]
     | (Raises (SystemExit _), _) => False
     end /\
     (forall cls msg,
        load lib (files w) input_path = Err cls msg ->
        status = 1 /\
        stdout w' = stdout w ++ ["Error processing image: " +:+ msg]) /\
     (is_Some (lib_create lib output_path) -> status = 1)).
Proof.
  unfold run_script.
  destruct (decide (length argv < 3)%nat) as [Hshort|Hlong].
  { rewrite process_icon_main_usage by done. split; [done|].
    intros ? ? ? ? ->. simpl in Hshort. lia. }
  destruct argv as [|prog [|input_path [|output_path extra]]];
    [simpl in Hlong; lia..|].
  rewrite process_icon_main_args, create_rounded_icon_run.
  pose proof (body_outcome input_path output_path
                default_corner_radius_ratio w) as Hbody.
  pose proof (body_load_fails input_path output_path
                default_corner_radius_ratio w) as Hload.
  pose proof (body_unwritable input_path output_path
                default_corner_radius_ratio w) as Hcreate.
  destruct (create_rounded_icon_body lib input_path output_path
              default_corner_radius_ratio w) as [[[]|[cls msg|c]] w1] eqn:B;
    [| |done]; destruct Hbody as [new ->];
    (split; [intros ?; simpl in *; lia|]);
    intros ? ? ? ? [= <- <- <- <-]; rewrite B; (split; [done|split]).
  - intros cls msg Ld. by destruct (Hload _ _ Ld) as [[=] _].
  - intros Hcr. by destruct (Hcreate Hcr (printed (extend w new)
      ("Created processed icon at " +:+ output_path))).
  - intros cls' msg' Ld. by destruct (Hload _ _ Ld) as [[= -> ->] _].
  - done.
Qed.

(** C9: from the command line the ratio is always the default 0.22.  The
    arguments after the program name select the two paths and nothing
    else; every rounded rectangle drawn by a command-line run spans the
    converted image and has radius [min(w, h) * 0.22]. *)
Theorem cli_uses_default_ratio argv w :
  (forall prog input_path output_path extra,
     argv = prog :: input_path :: output_path :: extra ->
     process_icon_main lib argv w =
     create_rounded_icon lib input_path output_path None w) /\
  exists new,
    calls (process_icon_main lib argv w).2 = calls w ++ new /\
    forall blank xy radius fill reply,
      (CallRoundedRectangle blank xy radius fill, reply) ∈ new ->
      exists opened img,
        (CallConvert opened "RGBA", Gave img) ∈ new /\
        xy = ((0, 0), size img) /\
        radius = PrimFloat.mul (float_of_int (Z.min (width img) (height img)))
                               0.22%float /\
        fill = 255.
Proof.
  split. { intros ? ? ? ? ->. apply process_icon_main_args. }
  destruct (decide (length argv < 3)%nat) as [Hshort|Hlong].
  { rewrite process_icon_main_usage by done. exists []; simpl.
    split; [by rewrite app_nil_r|]. intros ? ? ? ? ? H.
    by apply elem_of_nil in H. }
  destruct argv as [|prog [|input_path [|output_path extra]]];
    [simpl in Hlong; lia..|].
  rewrite process_icon_main_args.
  run_rounder.
  all: eexists; (split; [reflexivity|]); intros b xy radius fill reply H;
    which_event H.
  all: eexists _, _; (split_and!; [by repeat constructor| | |done]);
    unfold width, height; by rewrite Size.
Qed.


Section RounderLaws.

Context (laws : PIL_laws lib).


(** C2: when the rounder succeeds, the file it wrote is the PNG encoding
    of an image with the width and height of the input image; [fit] was
    asked for the size of the image it was given and returned that
    size. *)
Theorem rounded_icon_keeps_size input_path output_path ratio w w' opened :
  load lib (files w) input_path = Ok opened ->
  create_rounded_icon lib input_path output_path ratio w = (Returns tt, w') ->
  exists out data img fitted,
    files w' !! output_path = Some data /\
    lib_encode lib "PNG" out = Ok data /\
    size out = size opened /\
    (CallFit img (size img) (0.5%float, 0.5%float), Gave fitted) ∈ calls w' /\
    size fitted = size img /\
    size img = size opened.
Proof.
  intros Ld. run_rounder; intros [= <-].
  simplify_eq.
  destruct (convert_spec lib laws _ _ _ Econvert) as [Hm0 Hs0].
  destruct (new_spec lib laws _ _ _ _ Enew) as (Hm1 & Hs1 & _).
  destruct (rounded_rectangle_spec lib laws _ _ _ _ _ Edraw)
    as (Hm2 & Hs2 & _).
  destruct (fit_spec lib laws _ _ _ _ Efit) as [Hm3 Hs3].
  destruct (putalpha_spec lib laws the_fitted the_mask the_out
              ltac:(congruence) ltac:(congruence)
              Eputalpha) as (Hm4 & Hs4 & _).
  rewrite save_data_format in Esave.
  destruct (lib_create lib output_path) as [[]|]; [done|].
  assert (size the_mask = size the_img) as Hmask by congruence.
  exists the_out, the_data, the_img, the_fitted. split_and!.
  - apply lookup_insert_eq.
  - done.
  - congruence.
  - rewrite <- Hmask. apply elem_of_app. right. by repeat constructor.
  - congruence.
  - done.
Qed.


End RounderLaws.

End Rounder.

(** ** The executable library satisfies the laws *)

Lemma toy_pil_laws : PIL_laws Toy.pil.
Proof.
  split; simpl.
  - by intros im m im' [= <-].
  - by intros m sz c im [= <-].
  - intros im xy radius fill im' [= <-]. split_and!; [done..|].
    intros _ _ x y _. unfold getpixel; simpl.
    destruct (Toy.painted xy (Toy.floor radius) x y); auto.
  - intros im sz _ im'. unfold Toy.sample.
    destruct (_ && _); [|done]. by intros [= <-].
  - intros im mask im' Hm _. unfold Toy.putalpha.
    case_bool_decide as Hsz; [|done]. by intros [= <-].
  - intros im sz _ im'. unfold Toy.sample.
    destruct (_ && _); [|done]. by intros [= <-].
  - done.
Qed.

(** ** The scripts on concrete inputs *)

(** In an image at most two pixels wide and high the centre pixel is the
    bottom right corner, so its alpha cannot be both 0 and 255. *)
Lemma small_image_centre_is_corner value w h :
  1 <= w <= 2 -> 1 <= h <= 2 ->
  ~ corners_clear_centre_opaque value (w, h).
Proof.
  intros Hw Hh (_ & _ & _ & Hcorner & Hcentre).
  assert (w / 2 = w - 1) as Ew
    by (assert (w = 1 \/ w = 2) as [->| ->] by lia; done).
  assert (h / 2 = h - 1) as Eh
    by (assert (h = 1 \/ h = 2) as [->| ->] by lia; done).
  rewrite Ew, Eh, Hcorner in Hcentre. discriminate.
Qed.

(** With fewer than two arguments the resizer dies of an uncaught
    [IndexError], whatever the library. *)
Lemma resize_icons_main_too_few lib argv w :
  (length argv < 3)%nat ->
  run_script (resize_icons_main lib) argv w = (1, w).
Proof. by destruct argv as [|? [|? [|? ?]]]; [..|simpl; lia]. Qed.

(** C4 as stated fails: run without arguments, the resizer exits with
    status 1 and prints nothing. *)
Lemma resize_icons_without_arguments_counterexample :
  let '(status, w') :=
    run_script (resize_icons_main Toy.pil) ["resize_icons.py"]
               (Toy.world Toy.disk) in
  status = 1 /\ status <> 0 /\ stdout w' = [].
Proof. vm_compute. by split_and!. Qed.


Lemma resize_icons_exits_zero_witness :
  exists w' line,
    run_script (resize_icons_main Toy.pil)
               ["resize_icons.py"; "dot.png"; "/readonly"]
               (Toy.world Toy.disk) = (0, w') /\
    stdout w' = [line].
Proof.
  destruct (resize_icons_exits_zero Toy.pil
              ["resize_icons.py"; "dot.png"; "/readonly"]
              (Toy.world Toy.disk) "resize_icons.py" "dot.png" "/readonly" []
              eq_refl) as (w' & line & Run & Out & _).
  exists w', line. exact (conj Run Out).
Defined.

Lemma resize_icon_keeps_mode_witness :
  exists new line,
    resize_icon Toy.pil "master.png" "icons" (Toy.world Toy.disk) =
      (Returns tt, printed (extend (Toy.world Toy.disk) new) line) /\
    Forall (fun e => ~ is_convert e) new.
Proof.
  destruct (resize_icon_keeps_mode Toy.pil toy_pil_laws
              "master.png" "icons" (Toy.world Toy.disk))
    as (new & line & Run & Conv & _).
  exists new, line. exact (conj Run Conv).
Defined.



Lemma rounded_icon_keeps_size_witness :
  exists out data,
    files (create_rounded_icon Toy.pil "master.png" "out.png" None
             (Toy.world Toy.disk)).2 !! "out.png" = Some data /\
    lib_encode Toy.pil "PNG" out = Ok data /\
    size out = (64, 64).
Proof.
  destruct (rounded_icon_keeps_size Toy.pil toy_pil_laws
              "master.png" "out.png" None (Toy.world Toy.disk)
              (create_rounded_icon Toy.pil "master.png" "out.png" None
                 (Toy.world Toy.disk)).2
              {| mode := "L"; size := (64, 64);
                 pixels := fun x y =>
                   [Toy.of_byte (nth (Z.to_nat (y * 64 + x)) [] x00)] |})
    as (out & data & img & fitted & File & Enc & Size & _).
  - reflexivity.
  - reflexivity.
  - exists out, data. exact (conj File (conj Enc Size)).
Defined.



(** The rounder on a missing input: the error is reported and the exit
    status is 1. *)
Example process_icon_missing_input :
  let '(status, w') :=
    run_script (process_icon_main Toy.pil)
               ["process_icon.py"; "nope.png"; "out.png"]
               (Toy.world Toy.disk) in
  status = 1 /\
  stdout w' =
    ["Error processing image: [Errno 2] No such file or directory: 'nope.png'"]
  /\ files w' !! "out.png" = None.
Proof. vm_compute. by split_and!. Qed.

(** The resizer on a directory in which nothing can be created: the error
    is printed, nothing is saved and the exit status is 0. *)
Example resize_icons_readonly_directory :
  let '(status, w') :=
    run_script (resize_icons_main Toy.pil)
               ["resize_icons.py"; "dot.png"; "/readonly"]
               (Toy.world Toy.disk) in
  status = 0 /\
  stdout w' =
    ["Error: [Errno 13] Permission denied: '/readonly/icon_16x16.png'"] /\
  saves (calls w') = [] /\
  files w' !! "/readonly/icon_16x16.png" = None.
Proof. vm_compute. by split_and!. Qed.

(** The resizer stopped by the third save: the two files of size 16 are
    there (two bytes of header and one byte per pixel), the third is not,
    and the exit status is still 0. *)
Example resize_icons_stopped_midway :
  let '(status, w') :=
    run_script (resize_icons_main (Toy.pil_without "icons/icon_32x32.png"))
               ["resize_icons.py"; "dot.png"; "icons"]
               (Toy.world Toy.disk) in
  status = 0 /\
  stdout w' = ["Error: [Errno 28] No space left on device"] /\
  path_of <$> saves (calls w') =
    ["icons/icon_16x16.png"; "icons/icon_16x16@2x.png"] /\
  length <$> files w' !! "icons/icon_16x16.png" = Some 258%nat /\
  length <$> files w' !! "icons/icon_16x16@2x.png" = Some 1026%nat /\
  files w' !! "icons/icon_32x32.png" = None.
Proof. vm_compute. by split_and!. Qed.

(** On the 64 by 64 image and the default ratio the stand-in rasteriser
    does leave the corners clear and the centre opaque. *)
Example master_icon_corners :
  let '(r, w') :=
    create_rounded_icon Toy.pil "master.png" "out.png" None
                        (Toy.world Toy.disk) in
  r = Returns tt /\
  match last (saves (calls w')) with
  | Some (_, out, _) =>
      size out = (64, 64) /\
      corners_clear_centre_opaque (alpha out) (size out)
  | None => False
  end.
Proof. vm_compute. by split_and!. Qed.

(** * Further properties of the scripts *)

(** ** The resizer *)

Section ResizerMore.

Context (lib : PIL).

Lemma fail_fast_app new1 r new2 :
  Forall succeeded new1 -> fail_fast r new2 -> fail_fast r (new1 ++ new2).
Proof.
  intros H1 H2. destruct r as [|e]; simpl in *.
  - by apply Forall_app.
  - destruct H2 as (init & c & cls & msg & -> & -> & Hinit).
    exists (new1 ++ init), c, cls, msg.
    split_and!; [done|by rewrite <- List.app_assoc|by apply Forall_app].
Qed.

Lemma resize_one_fail_fast img output_dir s w :
  exists r new,
    resize_one lib img output_dir s w = (r, extend w new) /\ fail_fast r new.
Proof.
  unfold resize_one, bind, resize.
  set (p1 := output_dir +:+ "/icon_" +:+ str_int s +:+ "x" +:+ str_int s
                        +:+ ".png").
  set (p2 := output_dir +:+ "/icon_" +:+ str_int s +:+ "x" +:+ str_int s
                        +:+ "@2x.png").
  clearbody p1 p2.
  rewrite call_image_run.
  destruct (lib_resize lib img (s, s) LANCZOS) as [o1|cls msg].
  2:{ eexists _, _; split; [done|]. by eexists [], _, cls, msg. }
  rewrite save_run.
  destruct (save_data lib o1 p1 None) as [d1|cls msg].
  2:{ rewrite extend_app. eexists _, _; split; [done|].
      eexists [_], _, cls, msg. split_and!; [done..|]. by repeat constructor. }
  cbv zeta. rewrite call_image_run, !extend_app.
  destruct (lib_resize lib img (s * 2, s * 2) LANCZOS) as [o2|cls msg].
  2:{ rewrite extend_app. eexists _, _; split; [done|].
      eexists [_; _], _, cls, msg.
      split_and!; [done..|]. by repeat constructor. }
  rewrite save_run, !extend_app.
  destruct (save_data lib o2 p2 None) as [d2|cls msg].
  2:{ rewrite extend_app. eexists _, _; split; [done|].
      eexists [_; _; _], _, cls, msg.
      split_and!; [done..|]. by repeat constructor. }
  rewrite extend_app. eexists _, _; split; [done|].
  simpl. by repeat constructor.
Qed.

Lemma for_each_fail_fast img output_dir ss w :
  exists r new,
    for_each ss (resize_one lib img output_dir) w = (r, extend w new) /\
    fail_fast r new.
Proof.
  revert w. induction ss as [|s ss IH]; intros w.
  - exists (Returns tt), []. rewrite extend_nil. split; [done|constructor].
  - cbn [for_each]. unfold bind.
    destruct (resize_one_fail_fast img output_dir s w) as (r & new & -> & F).
    destruct r as [[]|e]; [|by exists (Raises e), new].
    destruct (IH (extend w new)) as (r' & new' & -> & F').
    rewrite extend_app. exists r', (new ++ new').
    split; [done|]. by apply fail_fast_app.
Qed.

(** X1: the resizer stops at the first library call that raises.  Either
    every call returned and it printed "Resized all icons.", or the last
    call of the run is the only one that raised, and the line printed
    carries its message. *)
Theorem resize_icon_stops_at_first_failure input_path output_dir w :
  exists new line,
    resize_icon lib input_path output_dir w =
      (Returns tt, printed (extend w new) line) /\
    (Forall succeeded new /\ line = "Resized all icons." \/
     exists init c cls msg,
       new = init ++ [(c, Failed cls msg)] /\
       Forall succeeded init /\
       line = "Error: " +:+ msg).
Proof.
  unfold resize_icon, try_except, resize_icon_body, bind.
  rewrite Image_open_run.
  destruct (load lib (files w) input_path) as [img|cls msg].
  2:{ eexists _, _; split; [done|]. right. by eexists [], _, cls, msg. }
  destruct (for_each_fail_fast img output_dir sizes
              (extend w [(CallOpen input_path, Gave img)]))
    as (r & loop & -> & F).
  rewrite extend_app. destruct r as [[]|e].
  - eexists _, _; split; [done|]. left. split; [|done].
    constructor; [done|exact F].
  - destruct F as (init & c & cls & msg & -> & -> & Hinit).
    eexists _, _; split; [done|]. right.
    exists ((CallOpen input_path, Gave img) :: init), c, cls, msg.
    split_and!; [done| |done]. by constructor.
Qed.

(** X2: the image is opened once, and every output is resampled from the
    image loaded at the start: after the open, every call of a run is a
    Lanczos resize of that image to a square, or a save, with the format
    left to the file name, of an image such a resize returned.  This holds
    also when the input file is one of the files the run overwrites. *)
Theorem resize_icon_resamples_the_source input_path output_dir w img :
  load lib (files w) input_path = Ok img ->
  exists loop line,
    resize_icon lib input_path output_dir w =
      (Returns tt,
       printed (extend w ((CallOpen input_path, Gave img) :: loop)) line) /\
    Forall (from_resize lib img) loop.
Proof.
  intros Ld.
  destruct (resize_icon_run lib input_path output_dir w)
    as (new & line & Run & Log).
  unfold resizer_log in Log. rewrite Ld in Log.
  destruct Log as (r & loop & done & rest & -> & _ & (F & _) & _).
  by exists loop, line.
Qed.


End ResizerMore.

Section ResizerSizes.

Context (lib : PIL) (laws : PIL_laws lib).

Lemma same_path_same_target (ts : list (string * Z)) t1 t2 :
  NoDup (fst <$> ts) -> t1 ∈ ts -> t2 ∈ ts -> t1.1 = t2.1 -> t1 = t2.
Proof.
  induction ts as [|t ts IH]; intros Hnd H1 H2 Heq.
  - by apply elem_of_nil in H1.
  - rewrite fmap_cons, NoDup_cons in Hnd. destruct Hnd as [Hfresh Hnd].
    apply elem_of_cons in H1 as [->|H1], H2 as [->|H2]; [done| | |by apply IH].
    + destruct Hfresh. rewrite Heq. by apply list_elem_of_fmap_2.
    + destruct Hfresh. rewrite <- Heq. by apply list_elem_of_fmap_2.
Qed.

(** What was saved under the path of a target is the source resized to
    the side of that target. *)
Lemma saved_has_side img output_dir loop done rest fp side out data :
  Forall2 (wrote lib img) (saves loop) done ->
  done ++ rest = flat_map (targets output_dir) sizes ->
  (fp, side) ∈ flat_map (targets output_dir) sizes ->
  (fp, out, data) ∈ saves loop ->
  size out = (side, side).
Proof.
  intros W T Hin Hs.
  apply list_elem_of_lookup in Hs as [i Hi].
  destruct (Forall2_lookup_l _ _ _ _ _ W Hi) as (t & Ht & Hfp & Hr & _).
  assert (t ∈ flat_map (targets output_dir) sizes) as Hin'.
  { rewrite <- T. apply elem_of_app. left. by eapply list_elem_of_lookup_2. }
  assert (t = (fp, side)) as ->.
  { eapply same_path_same_target; [|done..].
    rewrite targets_icon_set. apply in_dir_paths_NoDup. }
  by apply (resize_spec lib laws) in Hr as [_ ?].
Qed.

(** X3: whenever a run of the resizer has saved both files of a nominal
    size N, the 1x image is N by N, the 2x image is 2N by 2N, and the 2x
    image has exactly four times as many pixels as the 1x image. *)
Theorem resize_icon_2x_has_four_times_the_pixels input_path output_dir w :
  exists new line,
    resize_icon lib input_path output_dir w =
      (Returns tt, printed (extend w new) line) /\
    forall s out_1x data_1x out_2x data_2x,
      s ∈ sizes ->
      (output_dir +:+ "/icon_" +:+ str_int s +:+ "x" +:+ str_int s
                  +:+ ".png", out_1x, data_1x) ∈ saves new ->
      (output_dir +:+ "/icon_" +:+ str_int s +:+ "x" +:+ str_int s
                  +:+ "@2x.png", out_2x, data_2x) ∈ saves new ->
      size out_1x = (s, s) /\
      size out_2x = (s * 2, s * 2) /\
      pixel_count out_2x = 4 * pixel_count out_1x.
Proof.
  destruct (resize_icon_run lib input_path output_dir w)
    as (new & line & Run & Log).
  exists new, line. split; [done|].
  intros s out_1x data_1x out_2x data_2x Hs H1 H2.
  unfold resizer_log in Log.
  destruct (load lib (files w) input_path) as [img|cls msg].
  2:{ destruct Log as [-> _]. by apply elem_of_nil in H1. }
  destruct Log as (r & loop & done & rest & -> & T & (_ & W & _) & _).
  change (saves ((CallOpen input_path, Gave img) :: loop))
    with (saves loop) in H1, H2.
  rewrite <- targets_icon_set in T.
  assert (forall t, t ∈ targets output_dir s ->
                    t ∈ flat_map (targets output_dir) sizes) as Hin.
  { intros t Ht. apply list_elem_of_In, in_flat_map. exists s.
    by rewrite <- !list_elem_of_In. }
  assert (size out_1x = (s, s)) as S1.
  { eapply saved_has_side; [done..| |done]. apply Hin. by left. }
  assert (size out_2x = (s * 2, s * 2)) as S2.
  { eapply saved_has_side; [done..| |done]. apply Hin. right. by left. }
  split_and!; [done..|].
  unfold pixel_count, width, height. rewrite S1, S2. simpl. ring.
Qed.

End ResizerSizes.

(** X5: with fewer than two arguments both command lines end with status
    1 and touch nothing.  The resizer prints nothing (it dies of the
    uncaught [IndexError] of [sys.argv]); the rounder prints its usage
    line. *)
Theorem command_lines_need_two_arguments lib argv w :
  (length argv < 3)%nat ->
  run_script (resize_icons_main lib) argv w = (1, w) /\
  run_script (process_icon_main lib) argv w = (1, printed w usage).
Proof.
  intros Hshort. split.
  - by destruct argv as [|? [|? [|? ?]]]; [..|simpl in Hshort; lia].
  - unfold run_script. by rewrite process_icon_main_usage.
Qed.

(** ** The rounder *)

Section RounderMore.

Context (lib : PIL).

(** What a successful run went through. *)
Lemma rounded_success input_path output_path ratio w w' :
  create_rounded_icon lib input_path output_path ratio w = (Returns tt, w') ->
  exists opened img blank mask fitted out data,
    load lib (files w) input_path = Ok opened /\
    lib_convert lib opened "RGBA" = Ok img /\
    lib_new lib "L" (size img) 0 = Ok blank /\
    lib_rounded_rectangle lib blank ((0, 0), size img)
      (PrimFloat.mul (float_of_int (Z.min (width img) (height img)))
                     (match ratio with
                      | Some r => r
                      | None => default_corner_radius_ratio
                      end))
      255 = Ok mask /\
    lib_fit lib img (size mask) (0.5%float, 0.5%float) = Ok fitted /\
    lib_putalpha lib fitted mask = Ok out /\
    save_data lib out output_path (Some "PNG") = Ok data /\
    w' = printed
           (extend w
              [(CallOpen input_path, Gave opened);
               (CallConvert opened "RGBA", Gave img);
               (CallNew "L" (size img) 0, Gave blank);
               (CallRoundedRectangle blank ((0, 0), size img)
                  (PrimFloat.mul
                     (float_of_int (Z.min (width img) (height img)))
                     (match ratio with
                      | Some r => r
                      | None => default_corner_radius_ratio
                      end)) 255,
                Gave mask);
               (CallFit img (size mask) (0.5%float, 0.5%float), Gave fitted);
               (CallPutalpha fitted mask, Gave out);
               (CallSave out output_path (Some "PNG"), Wrote data)])
           ("Created processed icon at " +:+ output_path).
Proof.
  run_rounder; intros [= <-].
  exists the_opened, the_img, the_blank, the_mask, the_fitted, the_out,
    the_data.
  unfold width, height. rewrite Size. by split_and!.
Qed.



Section RounderMoreLaws.

Context (laws : PIL_laws lib).

(** X7: whatever the mode of the input, the image a successful run writes
    is an RGBA image. *)
Theorem rounded_icon_is_rgba input_path output_path ratio w w' :
  create_rounded_icon lib input_path output_path ratio w = (Returns tt, w') ->
  exists out data,
    files w' !! output_path = Some data /\
    lib_encode lib "PNG" out = Ok data /\
    mode out = "RGBA".
Proof.
  intros Run. apply rounded_success in Run
    as (opened & img & blank & mask & fitted & out & data
        & Eo & Ec & En & Ed & Ef & Ep & Es & ->).
  destruct (convert_spec lib laws _ _ _ Ec) as [Hm0 _].
  destruct (new_spec lib laws _ _ _ _ En) as (Hm1 & _).
  destruct (rounded_rectangle_spec lib laws _ _ _ _ _ Ed) as (Hm2 & _).
  destruct (fit_spec lib laws _ _ _ _ Ef) as [Hm3 _].
  destruct (putalpha_spec lib laws fitted mask out
              ltac:(congruence) ltac:(congruence) Ep) as (Hm4 & _).
  rewrite save_data_format in Es.
  destruct (lib_create lib output_path) as [[]|]; [done|].
  exists out, data. split_and!; [apply lookup_insert_eq|done..].
Qed.

(** X9: the alpha channel the rounder produces depends on the size of the
    image and on the ratio only.  Two successful runs, on any two inputs
    of the same size, write images of the same size with the same alpha
    at every pixel: whatever transparency the input had is replaced. *)
Theorem rounded_icon_alpha_depends_on_size_only
    input1 output1 w1 w1' opened1 input2 output2 w2 w2' opened2 ratio :
  load lib (files w1) input1 = Ok opened1 ->
  load lib (files w2) input2 = Ok opened2 ->
  size opened1 = size opened2 ->
  create_rounded_icon lib input1 output1 ratio w1 = (Returns tt, w1') ->
  create_rounded_icon lib input2 output2 ratio w2 = (Returns tt, w2') ->
  exists out1 data1 out2 data2,
    files w1' !! output1 = Some data1 /\
    lib_encode lib "PNG" out1 = Ok data1 /\
    files w2' !! output2 = Some data2 /\
    lib_encode lib "PNG" out2 = Ok data2 /\
    size out1 = size out2 /\
    forall x y, inside out1 x y -> alpha out1 x y = alpha out2 x y.
Proof.
  intros Ld1 Ld2 Hsize Run1 Run2.
  apply rounded_success in Run1
    as (o1 & img1 & blank1 & mask1 & fitted1 & out1 & data1
        & Eo1 & Ec1 & En1 & Ed1 & Ef1 & Ep1 & Es1 & ->).
  apply rounded_success in Run2
    as (o2 & img2 & blank2 & mask2 & fitted2 & out2 & data2
        & Eo2 & Ec2 & En2 & Ed2 & Ef2 & Ep2 & Es2 & ->).
  simplify_eq.
  destruct (convert_spec lib laws _ _ _ Ec1) as [Hm1 Hs1].
  destruct (convert_spec lib laws _ _ _ Ec2) as [Hm2 Hs2].
  assert (size img1 = size img2) as Himg by congruence.
  unfold width, height in Ed1, Ed2. rewrite Himg in En1, Ed1.
  assert (blank1 = blank2) as -> by congruence.
  assert (mask1 = mask2) as -> by congruence.
  destruct (new_spec lib laws _ _ _ _ En2) as (Hmb & _).
  destruct (rounded_rectangle_spec lib laws _ _ _ _ _ Ed2) as (Hmm & _).
  destruct (fit_spec lib laws _ _ _ _ Ef1) as [Hmf1 Hsf1].
  destruct (fit_spec lib laws _ _ _ _ Ef2) as [Hmf2 Hsf2].
  destruct (putalpha_spec lib laws fitted1 mask2 out1
              ltac:(congruence) ltac:(congruence) Ep1) as (_ & Hso1 & Ha1).
  destruct (putalpha_spec lib laws fitted2 mask2 out2
              ltac:(congruence) ltac:(congruence) Ep2) as (_ & Hso2 & Ha2).
  rewrite save_data_format in Es1, Es2.
  destruct (lib_create lib output1) as [[]|]; [done|].
  destruct (lib_create lib output2) as [[]|]; [done|].
  exists out1, data1, out2, data2.
  split_and!; [apply lookup_insert_eq|done|apply lookup_insert_eq|done| |].
  - congruence.
  - intros x y Hin.
    assert (inside fitted1 x y) as Hin1
      by (unfold inside, width, height in *; by rewrite <- Hso1).
    assert (inside fitted2 x y) as Hin2
      by (unfold inside, width, height in *; congruence).
    by rewrite Ha1, Ha2.
Qed.

(** X8: the two scripts chained.  After a successful run of the rounder
    the file at its output path is the PNG encoding of an RGBA image, and
    a run of the resizer on that path opens this file: every icon it
    saves is resampled from what the rounder wrote, also when the rounder
    worked in place. *)
Theorem resize_icon_after_create_rounded_icon
    input_path icon_path output_dir ratio w w1 :
  create_rounded_icon lib input_path icon_path ratio w = (Returns tt, w1) ->
  exists out data,
    lib_encode lib "PNG" out = Ok data /\
    mode out = "RGBA" /\
    load lib (files w1) icon_path = lib_decode lib data /\
    forall reloaded,
      lib_decode lib data = Ok reloaded ->
      exists loop line,
        resize_icon lib icon_path output_dir w1 =
          (Returns tt,
           printed (extend w1 ((CallOpen icon_path, Gave reloaded) :: loop))
                   line) /\
        Forall (from_resize lib reloaded) loop.
Proof.
  intros Run. apply rounded_success in Run
    as (opened & img & blank & mask & fitted & out & data
        & Eo & Ec & En & Ed & Ef & Ep & Es & ->).
  destruct (convert_spec lib laws _ _ _ Ec) as [Hm0 _].
  destruct (new_spec lib laws _ _ _ _ En) as (Hm1 & _).
  destruct (rounded_rectangle_spec lib laws _ _ _ _ _ Ed) as (Hm2 & _).
  destruct (fit_spec lib laws _ _ _ _ Ef) as [Hm3 _].
  destruct (putalpha_spec lib laws fitted mask out
              ltac:(congruence) ltac:(congruence) Ep) as (Hm4 & _).
  rewrite save_data_format in Es.
  destruct (lib_create lib icon_path) as [[]|]; [done|].
  match goal with |- context [load lib (files ?w) _] => set (w1 := w) end.
  assert (load lib (files w1) icon_path = lib_decode lib data) as Ld
    by (unfold load, w1; cbn [files printed extend];
        change (saves _) with [(icon_path, out, data)];
        cbn [write_all fold_left]; by rewrite lookup_insert_eq).
  exists out, data. split_and!; [done..|].
  intros reloaded Dec. rewrite Dec in Ld.
  destruct (resize_icon_run lib icon_path output_dir w1)
    as (new & line & Run' & Log).
  unfold resizer_log in Log. rewrite Ld in Log.
  destruct Log as (r & loop & done & rest & -> & _ & (F & _) & _).
  by exists loop, line.
Qed.

End RounderMoreLaws.

End RounderMore.

(** ** The further properties on concrete inputs *)

Lemma resize_icon_resamples_the_source_witness :
  exists img loop line,
    load Toy.pil (files (Toy.world Toy.disk)) "dot.png" = Ok img /\
    resize_icon Toy.pil "dot.png" "icons" (Toy.world Toy.disk) =
      (Returns tt,
       printed (extend (Toy.world Toy.disk)
                       ((CallOpen "dot.png", Gave img) :: loop)) line) /\
    Forall (from_resize Toy.pil img) loop.
Proof.
  eexists.
  destruct (resize_icon_resamples_the_source Toy.pil "dot.png" "icons"
              (Toy.world Toy.disk) _ eq_refl) as (loop & line & Run & F).
  exists loop, line. exact (conj eq_refl (conj Run F)).
Defined.

Lemma resize_icon_2x_has_four_times_the_pixels_witness :
  exists new line,
    resize_icon Toy.pil "dot.png" "icons" (Toy.world Toy.disk) =
      (Returns tt, printed (extend (Toy.world Toy.disk) new) line).
Proof.
  destruct (resize_icon_2x_has_four_times_the_pixels Toy.pil toy_pil_laws
              "dot.png" "icons" (Toy.world Toy.disk))
    as (new & line & Run & _).
  exists new, line. exact Run.
Defined.


Lemma command_lines_need_two_arguments_witness :
  run_script (resize_icons_main Toy.pil) ["resize_icons.py"; "dot.png"]
             (Toy.world Toy.disk) = (1, Toy.world Toy.disk) /\
  run_script (process_icon_main Toy.pil) ["resize_icons.py"; "dot.png"]
             (Toy.world Toy.disk) = (1, printed (Toy.world Toy.disk) usage).
Proof.
  apply (command_lines_need_two_arguments Toy.pil
           ["resize_icons.py"; "dot.png"] (Toy.world Toy.disk)).
  simpl. lia.
Defined.


Lemma rounded_icon_is_rgba_witness :
  exists out data,
    files (create_rounded_icon Toy.pil "dot.png" "out.png" None
             (Toy.world Toy.disk)).2 !! "out.png" = Some data /\
    lib_encode Toy.pil "PNG" out = Ok data /\
    mode out = "RGBA".
Proof.
  apply (rounded_icon_is_rgba Toy.pil toy_pil_laws "dot.png" "out.png" None
           (Toy.world Toy.disk)).
  reflexivity.
Defined.

Lemma resize_icon_after_create_rounded_icon_witness :
  exists out data,
    lib_encode Toy.pil "PNG" out = Ok data /\
    mode out = "RGBA" /\
    load Toy.pil
         (files (create_rounded_icon Toy.pil "dot.png" "dot.png" None
                   (Toy.world Toy.disk)).2) "dot.png" =
    lib_decode Toy.pil data.
Proof.
  destruct (resize_icon_after_create_rounded_icon Toy.pil toy_pil_laws
              "dot.png" "dot.png" "icons" None (Toy.world Toy.disk)
              (create_rounded_icon Toy.pil "dot.png" "dot.png" None
                 (Toy.world Toy.disk)).2 eq_refl)
    as (out & data & Enc & Mode & Ld & _).
  exists out, data. exact (conj Enc (conj Mode Ld)).
Defined.

Lemma rounded_icon_alpha_depends_on_size_only_witness :
  exists out1 out2,
    size out1 = size out2 /\
    forall x y, inside out1 x y -> alpha out1 x y = alpha out2 x y.
Proof.
  set (w2 := Toy.world (<["spot.png" := [x01; x01; x10]]> Toy.disk)).
  eassert (load Toy.pil (files w2) "spot.png" = Ok _) as Ld2
    by (vm_compute; reflexivity).
  destruct (rounded_icon_alpha_depends_on_size_only Toy.pil toy_pil_laws
              "dot.png" "out1.png" (Toy.world Toy.disk)
              (create_rounded_icon Toy.pil "dot.png" "out1.png" None
                 (Toy.world Toy.disk)).2
              _
              "spot.png" "out2.png" w2
              (create_rounded_icon Toy.pil "spot.png" "out2.png" None w2).2
              _ None eq_refl Ld2 eq_refl eq_refl)
    as (out1 & data1 & out2 & data2 & _ & _ & _ & _ & Size & Alpha).
  - reflexivity.
  - exists out1, out2. exact (conj Size Alpha).
Defined.
